(** * Avatar views of askbot: the listing of a user's avatars and the
      handlers that change which avatar is primary.

    Shallow embedding of [askbot/views/avatar_views.py].  The Django ORM is
    modelled as two tables held in a [Store]; a view takes the request and
    the store and returns the response with the new store.  Python
    exceptions are values of the [result] monad. *)

From Stdlib Require Import ZArith.
From stdpp Require Import base option list strings gmap.

Local Open Scope Z_scope.
Local Open Scope string_scope.
Local Open Scope list_scope.

(** ** Python exceptions *)

Inductive exn : Set :=
  | AttributeError
  | ValueError
  | IndexError
  | DoesNotExist.

Inductive result (A : Type) : Type :=
  | Return (a : A)
  | Raise (e : exn).
Arguments Return {A} a.
Arguments Raise {A} e.

#[global] Instance result_ret : MRet result := λ A a, Return a.
#[global] Instance result_bind : MBind result := λ A B f m,
  match m with
  | Return a => f a
  | Raise e => Raise e
  end.

(** [filter(f, items)] of Python 2 on a list, for an [f] that may raise:
    the items are tested from left to right and the first exception
    aborts the whole call. *)
Fixpoint filterM {A} (f : A → result bool) (items : list A) : result (list A) :=
  match items with
  | [] => Return []
  | v :: rest =>
      keep ← f v;
      kept ← filterM f rest;
      Return (if keep : bool then v :: kept else kept)
  end.

(** ** Rows and view data *)

Module Avatar.
(** A row of [avatar.models.Avatar]: primary key, owner, flag and file. *)
Record t : Set := Build {
  id : Z;
  user_id : Z;
  primary : bool;
  avatar : string
}.
Definition set_primary (b : bool) (a : t) : t :=
  Build (id a) (user_id a) b (avatar a).
End Avatar.

Module User.
(** A row of [askbot.models.User], with the two role tests of the
    caller that the views consult.  [avatar_type] is the one-letter
    flag: "a" uploaded, "g" gravatar, "n" default. *)
Record t : Set := Build {
  id : Z;
  avatar_type : string;
  is_administrator : bool;
  is_administrator_or_moderator : bool
}.
Definition set_avatar_type (ty : string) (u : t) : t :=
  Build (id u) ty (is_administrator u) (is_administrator_or_moderator u).
End User.

Module Datum.
(** One dictionary of the avatar data; the key ['id'] is missing for
    the gravatar and the default avatar. *)
Record t : Set := Build {
  id : option Z;
  avatar_type : string;
  url : string;
  is_primary : bool
}.
Definition set_is_primary (b : bool) (v : t) : t :=
  Build (id v) (avatar_type v) (url v) b.
End Datum.

#[global] Instance datum_eq_dec : EqDecision Datum.t.
Proof. solve_decision. Defined.

(** ** The tables *)

(** A Django model: every row has a primary key. *)
Class Model (R : Type) := pk : R → Z.
#[global] Instance avatar_model : Model Avatar.t := Avatar.id.
#[global] Instance user_model : Model User.t := User.id.

Section orm.
Context {R : Type} `{Model R}.

(** [objects.get(pk=k)]: the row with that key, if any. *)
Definition objects_get (k : Z) (table : list R) : option R :=
  List.find (λ r, bool_decide (pk r = k)) table.

(** [row.save()]: UPDATE of the row with the same key, INSERT at the end
    of the table when there is none. *)
Definition save (row : R) (table : list R) : list R :=
  match objects_get (pk row) table with
  | Some _ => (λ r, if bool_decide (pk r = pk row) then row else r) <$> table
  | None => table ++ [row]
  end.

(** [row.delete()]. *)
Definition delete_row (k : Z) (table : list R) : list R :=
  filter (λ r, pk r ≠ k) table.
End orm.

(** One sending of the [avatar_updated] signal: the [user] argument (its
    id, [None] for an anonymous user) and the avatar. *)
Record signal : Set := Signal {
  signal_user : option Z;
  signal_avatar : Avatar.t
}.

Record Store : Set := {
  users : list User.t;
  avatars : list Avatar.t;            (* in storage order *)
  avatar_updated : list signal         (* signals sent so far, oldest first *)
}.

(** [user.avatar_set.all()] *)
Definition avatar_set (s : Store) (user : User.t) : list Avatar.t :=
  filter (λ a, Avatar.user_id a = User.id user) (avatars s).

(** [user.avatar_set.update(primary=False)]: one UPDATE over the rows of
    the user; it sends no signal. *)
Definition avatar_set_update_primary (user : User.t) (b : bool)
    (table : list Avatar.t) : list Avatar.t :=
  (λ a, if bool_decide (Avatar.user_id a = User.id user)
        then Avatar.set_primary b a else a) <$> table.

(** ** External collaborators *)

(** The url of an avatar at a size comes from the storage of the avatar
    application, from the gravatar service and from the default avatar;
    the validation of a posted choice and of an upload belongs to the two
    forms of the avatar application, which are given the user, the posted
    value and the avatars of the user. *)
Class Collaborators := {
  avatar_url : Avatar.t → Z → string;
  get_gravatar_url : User.t → Z → string;
  get_default_avatar_url : User.t → Z → string;
  PrimaryAvatarForm_is_valid : User.t → Z → list Avatar.t → bool;
  UploadAvatarForm_is_valid : User.t → string → list Avatar.t → bool
}.

(** ** get_avatar_data *)

Section listing.
Context `{Collaborators}.

Definition uploaded_datum (avatar_size : Z) (avatar : Avatar.t) : Datum.t :=
  {| Datum.id := Some (Avatar.id avatar);
     Datum.avatar_type := "uploaded_avatar";
     Datum.url := avatar_url avatar avatar_size;
     Datum.is_primary := Avatar.primary avatar |}.

Definition gravatar_datum (user : User.t) (avatar_size : Z) : Datum.t :=
  {| Datum.id := None;
     Datum.avatar_type := "gravatar";
     Datum.url := get_gravatar_url user avatar_size;
     Datum.is_primary := bool_decide (User.avatar_type user = "g") |}.

Definition default_datum (user : User.t) (avatar_size : Z) : Datum.t :=
  {| Datum.id := None;
     Datum.avatar_type := "default_avatar";
     Datum.url := get_default_avatar_url user avatar_size;
     Datum.is_primary := bool_decide (User.avatar_type user = "n") |}.

(** Lines 37-63: the list as it is before any correction. *)
Definition candidates (s : Store) (user : User.t) (avatar_size : Z)
    : list Datum.t :=
  (uploaded_datum avatar_size <$> avatar_set s user)
    ++ [gravatar_datum user avatar_size]
    ++ [default_datum user avatar_size].
End listing.

(** The dictionaries of [avatar_data] are shared with the lists filtered
    out of it: an entry of such a list is the position of the dictionary
    in [avatar_data] together with what it held when it was filtered. *)
Definition ref : Set := nat * Datum.t.

Fixpoint refs_from (i : nat) (avatar_data : list Datum.t) : list ref :=
  match avatar_data with
  | [] => []
  | v :: rest => (i, v) :: refs_from (S i) rest
  end.

(** [filter(lambda v: v['is_primary'], avatar_data)] *)
Definition primary_avatars (avatar_data : list Datum.t) : list ref :=
  filter (λ r : ref, Datum.is_primary r.2 = true) (refs_from 0 avatar_data).

(** [v.type] on a dictionary: a [dict] has no attribute [type] (the entry
    is under the key ['avatar_type']), so the attribute access raises. *)
Definition getattr_type (v : Datum.t) : result string := Raise AttributeError.

(** [datum['is_primary'] = b] through a reference. *)
Definition setitem_is_primary (b : bool) (r : ref)
    (avatar_data : list Datum.t) : list Datum.t :=
  alter (Datum.set_is_primary b) r.1 avatar_data.

(** Lines 68-81, entered when more than one entry is primary. *)
Definition force_one_primary (primary : list ref)
    (avatar_data : list Datum.t) : result (list Datum.t) :=
  gravatars ← filterM
      (λ r : ref, ty ← getattr_type r.2; Return (bool_decide (ty = "gravatar")))
      primary;
  let cleared := foldl (λ data r, setitem_is_primary false r data)
                       avatar_data primary in
  match gravatars with
  | g :: _ => Return (setitem_is_primary true g cleared)
  | [] =>
      match primary with
      | p :: _ => Return (setitem_is_primary true p cleared)
      | [] => Raise IndexError
      end
  end.

(** [items.remove(x)]: drops the first item equal to [x]. *)
Fixpoint list_remove (x : Datum.t) (items : list Datum.t)
    : result (list Datum.t) :=
  match items with
  | [] => Raise ValueError
  | v :: rest =>
      if decide (v = x) then Return rest
      else rest' ← list_remove x rest; Return (v :: rest')
  end.

(** Lines 83-88: the primary entry goes first. *)
Definition insert_primary_first (avatar_data : list Datum.t)
    : result (list Datum.t) :=
  match primary_avatars avatar_data with
  | [] => Return avatar_data
  | (_, primary_avatar) :: _ =>
      others ← list_remove primary_avatar avatar_data;
      Return (primary_avatar :: others)
  end.

(** Lines 65-88: the correction applied to the list built so far. *)
Definition normalize (avatar_data : list Datum.t) : result (list Datum.t) :=
  let primary := primary_avatars avatar_data in
  avatar_data' ←
    (if decide (1 < length primary)%nat
     then force_one_primary primary avatar_data
     else Return avatar_data);
  insert_primary_first avatar_data'.

Section get_avatar_data.
Context `{Collaborators}.

Definition get_avatar_data (s : Store) (user : User.t) (avatar_size : Z)
    : result (list Datum.t * bool) :=
  avatar_data ← normalize (candidates s user avatar_size);
  Return (avatar_data, bool_decide (0 < length (avatar_set s user))%nat).
End get_avatar_data.

(** ** Requests and responses *)

(** [request.user]: the anonymous user or a logged-in user. *)
Inductive request_user : Set :=
  | AnonymousUser
  | LoggedIn (u : User.t).

Definition is_authenticated (u : request_user) : bool :=
  match u with
  | AnonymousUser => false
  | LoggedIn _ => true
  end.

Module Request.
Record t : Type := Build {
  user : request_user;
  method : string;
  POST : gmap string Z;          (* the posted fields the views read *)
  FILES : gmap string string     (* field name to the name of the file *)
}.
End Request.

Inductive url : Set :=
  | askbot_avatar_show_list (user_id : Z)
  | LOGIN_URL.

(** What a view hands back: a redirect, the 404 of [get_object_or_404],
    or an exception that escapes the view. *)
Inductive HttpResponse : Set :=
  | HttpResponseRedirect (to : url)
  | Http404
  | Uncaught (e : exn).

Definition view : Type := Request.t → Z → Store → HttpResponse * Store.

Definition redirect_to_show_list (user_id : Z) : HttpResponse :=
  HttpResponseRedirect (askbot_avatar_show_list user_id).

(** ** The decorators *)

(** Django's [login_required]: the view runs for an authenticated user,
    anyone else is sent to the login page. *)
Definition login_required (func : view) : view := λ request user_id s,
  if is_authenticated (Request.user request)
  then func request user_id s
  else (HttpResponseRedirect LOGIN_URL, s).

Definition admin_or_owner_required (func : view) : view := λ request user_id s,
  match Request.user request with
  | LoggedIn user =>
      if User.is_administrator user || bool_decide (User.id user = user_id)
      then func request user_id s
      else login_required func request user_id s
  | AnonymousUser => login_required func request user_id s
  end.

(** ** Writes to the store *)

Definition with_users (table : list User.t) (s : Store) : Store :=
  {| users := table; avatars := avatars s;
     avatar_updated := avatar_updated s |}.

Definition with_avatars (table : list Avatar.t) (s : Store) : Store :=
  {| users := users s; avatars := table;
     avatar_updated := avatar_updated s |}.

(** [avatar_updated.send(sender=Avatar, user=..., avatar=...)]; no
    receiver is connected in this module, the sending is recorded. *)
Definition avatar_updated_send (user : option Z) (avatar : Avatar.t)
    (s : Store) : Store :=
  {| users := users s; avatars := avatars s;
     avatar_updated := avatar_updated s ++ [Signal user avatar] |}.

Definition request_user_id (u : request_user) : option Z :=
  match u with
  | AnonymousUser => None
  | LoggedIn user => Some (User.id user)
  end.

(** The key the database gives to a new avatar row. *)
Definition next_avatar_id (table : list Avatar.t) : Z :=
  foldr Z.max 0 (Avatar.id <$> table) + 1.

(** Modelled from the spec: [Avatar.save] of the avatar application and the
    receivers askbot connects to the saving of an avatar are not in src/.
    Spec 3 keeps "at most one UploadedAvatar per user has primary = true",
    and spec 4.3 has a selection and an upload leave the user on avatarType
    uploaded with every other uploaded avatar of the user not primary.  So
    saving an avatar that is flagged primary clears the flag on the other
    avatars of its user, writes the row, and puts the owner of the avatar
    on type "a"; saving an avatar that is not flagged writes the row. *)
Definition Avatar_save (avatar : Avatar.t) (s : Store) : Store :=
  if Avatar.primary avatar then
    let siblings_cleared :=
      (λ a, if bool_decide (Avatar.user_id a = Avatar.user_id avatar
                            ∧ Avatar.id a ≠ Avatar.id avatar)
            then Avatar.set_primary false a else a) <$> avatars s in
    {| users :=
         match objects_get (Avatar.user_id avatar) (users s) with
         | Some owner => save (User.set_avatar_type "a" owner) (users s)
         | None => users s
         end;
       avatars := save avatar siblings_cleared;
       avatar_updated := avatar_updated s |}
  else with_avatars (save avatar (avatars s)) s.

(** ** The views *)

Section views.
Context `{Collaborators}.

Definition set_primary_func : view := λ request user_id s,
  match objects_get user_id (users s) with
  | None => (Http404, s)
  | Some user =>
      if bool_decide (Request.method request = "POST") then
        match Request.POST request !! "choice" with
        | Some choice =>
            if PrimaryAvatarForm_is_valid user choice (avatar_set s user)
            then
              match objects_get choice (avatars s) with
              | None => (Uncaught DoesNotExist, s)
              | Some avatar =>
                  let avatar := Avatar.set_primary true avatar in
                  let s := Avatar_save avatar s in
                  let s := avatar_updated_send
                             (request_user_id (Request.user request))
                             avatar s in
                  (redirect_to_show_list user_id, s)
              end
            else (redirect_to_show_list user_id, s)
        | None => (redirect_to_show_list user_id, s)
        end
      else (redirect_to_show_list user_id, s)
  end.

Definition set_primary : view := admin_or_owner_required set_primary_func.

Definition upload_func : view := λ request user_id s,
  match objects_get user_id (users s) with
  | None => (Http404, s)
  | Some user =>
      if bool_decide (Request.method request = "POST") then
        match Request.FILES request !! "avatar" with
        | Some image_file =>
            if UploadAvatarForm_is_valid user image_file (avatar_set s user)
            then
              let avatar := Avatar.Build (next_avatar_id (avatars s))
                              (User.id user) true image_file in
              let s := Avatar_save avatar s in
              let s := avatar_updated_send (Some (User.id user)) avatar s in
              (redirect_to_show_list user_id, s)
            else (redirect_to_show_list user_id, s)
        | None => (redirect_to_show_list user_id, s)
        end
      else (redirect_to_show_list user_id, s)
  end.

Definition upload : view := admin_or_owner_required upload_func.
End views.

(** [delete] carries its own test of the caller and takes the id of the
    avatar. *)
Definition delete : view := λ request avatar_id s,
  match objects_get avatar_id (avatars s) with
  | None => (Http404, s)
  | Some avatar =>
      if bool_decide (Request.method request = "POST")
         && match Request.user request with
            | LoggedIn user =>
                User.is_administrator_or_moderator user
                || bool_decide (Avatar.user_id avatar = User.id user)
            | AnonymousUser => false
            end
      then
        (* avatar.user: the owner, loaded once and kept on the avatar *)
        match objects_get (Avatar.user_id avatar) (users s) with
        | None => (Uncaught DoesNotExist, s)
        | Some avatar_user =>
            let avatar_type := User.avatar_type avatar_user in
            let s := with_avatars (delete_row (Avatar.id avatar) (avatars s)) s in
            let avatar_user := User.set_avatar_type avatar_type avatar_user in
            let s := with_users (save avatar_user (users s)) s in
            let s :=
              if bool_decide (avatar_type = "g")
              then with_avatars
                     (avatar_set_update_primary avatar_user false (avatars s)) s
              else s in
            (redirect_to_show_list (Avatar.user_id avatar), s)
        end
      else (redirect_to_show_list (Avatar.user_id avatar), s)
  end.

(** [enable_gravatar] and [enable_default_avatar] differ in the letter. *)
Definition enable_type_func (ty : string) : view := λ request user_id s,
  if bool_decide (Request.method request = "POST") then
    match objects_get user_id (users s) with
    | None => (Http404, s)
    | Some user =>
        let user := User.set_avatar_type ty user in
        let s := with_users (save user (users s)) s in
        let s := with_avatars
                   (avatar_set_update_primary user false (avatars s)) s in
        (redirect_to_show_list user_id, s)
    end
  else (redirect_to_show_list user_id, s).

Definition enable_gravatar_func : view := enable_type_func "g".
Definition enable_gravatar : view := admin_or_owner_required enable_gravatar_func.

Definition enable_default_avatar_func : view := enable_type_func "n".
Definition enable_default_avatar : view :=
  admin_or_owner_required enable_default_avatar_func.

Definition disable_gravatar_func : view := λ request user_id s,
  if bool_decide (Request.method request = "POST") then
    match objects_get user_id (users s) with
    | None => (Http404, s)
    | Some user =>
        let user := User.set_avatar_type "a" user in
        let s := with_users (save user (users s)) s in
        match avatar_set s user with
        | avatar :: _ =>
            let avatar := Avatar.set_primary true avatar in
            let s := Avatar_save avatar s in
            let s := avatar_updated_send
                       (request_user_id (Request.user request)) avatar s in
            (redirect_to_show_list user_id, s)
        | [] => (redirect_to_show_list user_id, s)
        end
    end
  else (redirect_to_show_list user_id, s).

Definition disable_gravatar : view :=
  admin_or_owner_required disable_gravatar_func.

(** ** Statements used by the theorems *)

(** [v['is_primary']] holds. *)
Definition flagged (v : Datum.t) : Prop := Datum.is_primary v = true.

#[global] Instance flagged_dec v : Decision (flagged v).
Proof. unfold flagged. apply _. Defined.

(** Exactly one entry is primary and it is the entry at index 0. *)
Definition one_primary_first (avatar_data : list Datum.t) : Prop :=
  length (filter flagged avatar_data) = 1%nat
  ∧ Datum.is_primary <$> avatar_data !! 0%nat = Some true.

(** The effect claimed for a successful selection, read on the store the
    view leaves: the avatar type is "a", the chosen avatar is primary and
    no other avatar of the user is. *)
Definition selected_as_claimed (s' : Store) (user_id avatar_id : Z) : Prop :=
  User.avatar_type <$> objects_get user_id (users s') = Some "a"
  ∧ Avatar.primary <$> objects_get avatar_id (avatars s') = Some true
  ∧ ∀ a, a ∈ avatars s' → Avatar.user_id a = user_id →
         Avatar.id a ≠ avatar_id → Avatar.primary a = false.

(** ** Sample data *)

Module Sample.
(** Collaborators to run the views with: a choice is valid when it is
    the id of one of the avatars the form was given, every upload is
    accepted. *)
Definition collaborators : Collaborators := {|
  avatar_url avatar size := "/upfiles/" +:+ Avatar.avatar avatar;
  get_gravatar_url user size := "//www.gravatar.com/avatar/";
  get_default_avatar_url user size := "/m/default/media/images/nophoto.png";
  PrimaryAvatarForm_is_valid user choice avs :=
    bool_decide (choice ∈ Avatar.id <$> avs);
  UploadAvatarForm_is_valid user image_file avs := true
|}.

(** User 1 owns the avatars, user 2 is another plain member. *)
Definition owner (ty : string) : User.t := User.Build 1 ty false false.
Definition member : User.t := User.Build 2 "n" false false.

Definition X (primary : bool) : Avatar.t := Avatar.Build 10 1 primary "x.png".
Definition Y (primary : bool) : Avatar.t := Avatar.Build 11 1 primary "y.png".

Definition store (ty : string) (avs : list Avatar.t) : Store :=
  {| users := [owner ty; member]; avatars := avs; avatar_updated := [] |}.

Definition post (caller : User.t) (fields : gmap string Z) : Request.t :=
  Request.Build (LoggedIn caller) "POST" fields ∅.
End Sample.

(** ** The correction of the list *)

Section normalize_facts.
Implicit Types (l : list Datum.t) (v : Datum.t).

Lemma refs_from_values i l :
  snd <$> filter (λ r : ref, Datum.is_primary r.2 = true) (refs_from i l)
  = filter flagged l.
Proof.
  revert i. induction l as [|v l IH]; intros i; [done|].
  cbn [refs_from]. rewrite !filter_cons. cbn [snd].
  unfold flagged at 1.
  destruct (decide (Datum.is_primary v = true)); cbn; by rewrite IH.
Qed.

Lemma primary_avatars_values l :
  snd <$> primary_avatars l = filter flagged l.
Proof. apply refs_from_values. Qed.

Lemma primary_avatars_length l :
  length (primary_avatars l) = length (filter flagged l).
Proof. by rewrite <- primary_avatars_values, length_fmap. Qed.

(** Entering the branch for more than one primary entry always ends in
    the attribute error. *)
Lemma force_one_primary_raises r rs l :
  force_one_primary (r :: rs) l = Raise AttributeError.
Proof. reflexivity. Qed.

Lemma normalize_raises l :
  (1 < length (filter flagged l))%nat → normalize l = Raise AttributeError.
Proof.
  intros Hlen. rewrite <- primary_avatars_length in Hlen.
  unfold normalize. rewrite decide_True by done.
  destruct (primary_avatars l) as [|r rs]; [cbn in Hlen; lia|].
  by rewrite force_one_primary_raises.
Qed.

Lemma normalize_at_most_one l :
  (length (filter flagged l) ≤ 1)%nat → normalize l = insert_primary_first l.
Proof.
  intros Hlen. rewrite <- primary_avatars_length in Hlen.
  unfold normalize. rewrite decide_False by lia. done.
Qed.

(** The first flagged entry splits the list. *)
Lemma filter_flagged_split l v vs :
  filter flagged l = v :: vs →
  ∃ l1 l2, l = l1 ++ v :: l2 ∧ Forall (λ x, ¬ flagged x) l1
           ∧ flagged v ∧ filter flagged l2 = vs.
Proof.
  induction l as [|x l IH]; [done|].
  rewrite filter_cons. destruct (decide (flagged x)) as [Hx|Hx].
  - intros [= -> <-]. by exists [], l.
  - intros (l1 & l2 & -> & Hl1 & Hv & Hl2)%IH.
    exists (x :: l1), l2. by repeat split; [constructor|..].
Qed.

Lemma filter_flagged_none l :
  Forall (λ x, ¬ flagged x) l → filter flagged l = [].
Proof.
  induction 1 as [|x l Hx _ IH]; [done|]. by rewrite filter_cons_False.
Qed.

Lemma list_remove_split l1 v l2 :
  Forall (λ x, x ≠ v) l1 →
  list_remove v (l1 ++ v :: l2) = Return (l1 ++ l2).
Proof.
  induction 1 as [|x l1 Hx _ IH]; cbn.
  - by rewrite decide_True.
  - rewrite decide_False by done. by rewrite IH.
Qed.

Lemma insert_primary_first_none l :
  filter flagged l = [] → insert_primary_first l = Return l.
Proof.
  intros Hnone. unfold insert_primary_first.
  destruct (primary_avatars l) as [|[i v] rs] eqn:Hrefs; [done|].
  by rewrite <- primary_avatars_values, Hrefs in Hnone.
Qed.

Lemma insert_primary_first_split l1 v l2 :
  Forall (λ x, ¬ flagged x) l1 → flagged v →
  insert_primary_first (l1 ++ v :: l2) = Return (v :: l1 ++ l2).
Proof.
  intros Hl1 Hv. unfold insert_primary_first.
  assert (filter flagged (l1 ++ v :: l2) = v :: filter flagged l2) as Hf.
  { rewrite filter_app, filter_cons_True by done.
    by rewrite filter_flagged_none. }
  rewrite <- primary_avatars_values in Hf.
  destruct (primary_avatars (l1 ++ v :: l2)) as [|[i w] rs]; [done|].
  injection Hf as -> _.
  rewrite list_remove_split; [done|].
  eapply Forall_impl; [exact Hl1|]. by intros x Hx ->.
Qed.

(** What [normalize] returns when at most one entry is flagged. *)
Lemma normalize_one l v :
  filter flagged l = [v] →
  ∃ l1 l2, l = l1 ++ v :: l2 ∧ normalize l = Return (v :: l1 ++ l2)
           ∧ filter flagged (v :: l1 ++ l2) = [v].
Proof.
  intros Hf. destruct (filter_flagged_split _ _ _ Hf)
    as (l1 & l2 & -> & Hl1 & Hv & Hl2).
  exists l1, l2. split; [done|]. split.
  - rewrite normalize_at_most_one by (rewrite Hf; cbn; lia).
    by apply insert_primary_first_split.
  - rewrite filter_cons_True, filter_app, Hl2 by done.
    by rewrite filter_flagged_none.
Qed.

Lemma normalize_none l :
  filter flagged l = [] → normalize l = Return l.
Proof.
  intros Hf. rewrite normalize_at_most_one by (rewrite Hf; cbn; lia).
  by apply insert_primary_first_none.
Qed.
End normalize_facts.

(** ** The listing *)

Section listing_facts.
Context `{Collaborators}.
Implicit Types (s : Store) (user : User.t) (size : Z).

Lemma candidates_unfold s user size :
  candidates s user size
  = (uploaded_datum size <$> avatar_set s user)
      ++ gravatar_datum user size :: [default_datum user size].
Proof. reflexivity. Qed.

(** X18: when exactly one candidate is flagged primary, [get_avatar_data]
    returns a list with exactly one primary entry, and that entry is at
    index 0. *)
Theorem get_avatar_data_one_primary s user size :
  length (filter flagged (candidates s user size)) = 1%nat →
  ∃ avatar_data has_uploaded_avatar,
    get_avatar_data s user size = Return (avatar_data, has_uploaded_avatar)
    ∧ one_primary_first avatar_data.
Proof.
  intros Hlen.
  destruct (filter flagged (candidates s user size)) as [|v [|??]] eqn:Hf;
    try done.
  destruct (normalize_one _ _ Hf) as (l1 & l2 & _ & Hnorm & Hf').
  unfold get_avatar_data. rewrite Hnorm. cbn.
  eexists _, _. split; [done|]. split.
  - by rewrite Hf'.
  - apply (filter_flagged_split _ _ _) in Hf as (?&?&?&?&Hv&?).
    cbn. by rewrite Hv.
Qed.

(** C3 (the defect): as soon as more than one candidate is flagged
    primary the call does not return, it raises [AttributeError]. *)
Theorem get_avatar_data_raises s user size :
  (1 < length (filter flagged (candidates s user size)))%nat →
  get_avatar_data s user size = Raise AttributeError.
Proof.
  intros Hlen. unfold get_avatar_data. by rewrite normalize_raises.
Qed.

End listing_facts.

(** C9: running the correction on a list it has returned gives that list
    back, with the same flags. *)
Theorem normalize_idempotent (avatar_data normalized : list Datum.t) :
  normalize avatar_data = Return normalized →
  normalize normalized = Return normalized.
Proof.
  intros Hnorm.
  destruct (filter flagged avatar_data) as [|v [|w vs]] eqn:Hf.
  - rewrite normalize_none in Hnorm by done. injection Hnorm as <-.
    by apply normalize_none.
  - destruct (normalize_one _ _ Hf) as (l1 & l2 & _ & Hret & Hf').
    rewrite Hret in Hnorm. injection Hnorm as <-.
    rewrite normalize_at_most_one by (rewrite Hf'; cbn; lia).
    apply (filter_flagged_split _ _ _) in Hf as (_ & _ & _ & _ & Hv & _).
    by apply (insert_primary_first_split []).
  - rewrite normalize_raises in Hnorm by (rewrite Hf; cbn; lia). done.
Qed.

(** C1 (the defect): a user on uploaded avatars who has none gets the
    gravatar entry and the default entry, neither primary: there is no
    primary entry at index 0, against the docstring of the function. *)
Theorem get_avatar_data_no_primary_entry :
  User.avatar_type (Sample.owner "a") ∈ ["a"; "g"; "n"]
  ∧ @get_avatar_data Sample.collaborators
      (Sample.store "a" []) (Sample.owner "a") 128
    = Return ([Datum.Build None "gravatar" "//www.gravatar.com/avatar/" false;
               Datum.Build None "default_avatar"
                 "/m/default/media/images/nophoto.png" false],
              false)
  ∧ ¬ one_primary_first
        [Datum.Build None "gravatar" "//www.gravatar.com/avatar/" false;
         Datum.Build None "default_avatar"
           "/m/default/media/images/nophoto.png" false].
Proof.
  split; [by left|]. split; [reflexivity|].
  intros [Hone _]. vm_compute in Hone. discriminate.
Qed.

Lemma get_avatar_data_one_primary_witness :
  ∃ avatar_data has_uploaded_avatar,
    @get_avatar_data Sample.collaborators
      (Sample.store "g" [Sample.X false; Sample.Y false]) (Sample.owner "g") 128
    = Return (avatar_data, has_uploaded_avatar)
    ∧ one_primary_first avatar_data.
Proof.
  apply (@get_avatar_data_one_primary Sample.collaborators). reflexivity.
Defined.

(** C6 (the defect): a user on the default avatar whose avatar Y is flagged.
    The list built is X, Y, gravatar, default with the id, url and flag the
    claim gives to each, and the user has uploaded avatars; but the call
    raises, so neither the list nor the boolean is returned. *)
Theorem get_avatar_data_returns_no_flag :
  @candidates Sample.collaborators
    (Sample.store "n" [Sample.X false; Sample.Y true]) (Sample.owner "n") 128
  = [Datum.Build (Some 10) "uploaded_avatar" "/upfiles/x.png" false;
     Datum.Build (Some 11) "uploaded_avatar" "/upfiles/y.png" true;
     Datum.Build None "gravatar" "//www.gravatar.com/avatar/" false;
     Datum.Build None "default_avatar"
       "/m/default/media/images/nophoto.png" true]
  ∧ avatar_set (Sample.store "n" [Sample.X false; Sample.Y true])
      (Sample.owner "n")
    = [Sample.X false; Sample.Y true]
  ∧ @get_avatar_data Sample.collaborators
      (Sample.store "n" [Sample.X false; Sample.Y true]) (Sample.owner "n") 128
    = Raise AttributeError.
Proof. repeat split; reflexivity. Qed.

(** C2 (the defect): two uploaded avatars both flagged primary and a
    gravatar entry that is not: the call raises [AttributeError], no entry
    is re-marked. *)
Theorem get_avatar_data_two_uploaded_primaries :
  Datum.is_primary
    <$> @candidates Sample.collaborators
          (Sample.store "a" [Sample.X true; Sample.Y true]) (Sample.owner "a") 128
  = [true; true; false; false]
  ∧ @get_avatar_data Sample.collaborators
      (Sample.store "a" [Sample.X true; Sample.Y true]) (Sample.owner "a") 128
    = Raise AttributeError.
Proof. split; reflexivity. Qed.

Lemma get_avatar_data_raises_witness :
  @get_avatar_data Sample.collaborators
    (Sample.store "g" [Sample.X true]) (Sample.owner "g") 128
  = Raise AttributeError.
Proof.
  apply (@get_avatar_data_raises Sample.collaborators). vm_compute. lia.
Defined.

Lemma normalize_idempotent_witness :
  normalize [Datum.Build None "gravatar" "g" true;
             Datum.Build (Some 10) "uploaded_avatar" "x" false;
             Datum.Build None "default_avatar" "d" false]
  = Return [Datum.Build None "gravatar" "g" true;
            Datum.Build (Some 10) "uploaded_avatar" "x" false;
            Datum.Build None "default_avatar" "d" false].
Proof.
  apply (normalize_idempotent
           [Datum.Build (Some 10) "uploaded_avatar" "x" false;
            Datum.Build None "gravatar" "g" true;
            Datum.Build None "default_avatar" "d" false]).
  reflexivity.
Defined.

(** ** The tables *)

Section orm_facts.
Context {R : Type} `{Model R}.
Implicit Types (row r : R) (table : list R) (k : Z).

Lemma objects_get_pk k table r : objects_get k table = Some r → pk r = k.
Proof.
  intros [_ Hk]%find_some. by apply bool_decide_eq_true in Hk.
Qed.

Lemma objects_get_None k table :
  Forall (λ r, pk r ≠ k) table → objects_get k table = None.
Proof.
  unfold objects_get. induction 1 as [|r table Hr _ IH]; [done|].
  cbn. by rewrite bool_decide_false.
Qed.

Lemma objects_get_delete_row k table :
  objects_get k (delete_row k table) = None.
Proof.
  apply objects_get_None, Forall_forall. intros r Hr.
  by apply list_elem_of_filter in Hr as [Hr _].
Qed.

(** A saved row is the row read back under its key. *)
Lemma objects_get_save row table :
  objects_get (pk row) (save row table) = Some row.
Proof.
  unfold save. destruct (objects_get (pk row) table) as [r|] eqn:Hget.
  - unfold objects_get in *.
    induction table as [|x table IH]; [done|].
    cbn in *. destruct (bool_decide (pk x = pk row)) eqn:Hx.
    + by rewrite bool_decide_true.
    + rewrite Hx. auto.
  - unfold objects_get in *.
    induction table as [|x table IH].
    + cbn. by rewrite bool_decide_true.
    + cbn in *. destruct (bool_decide (pk x = pk row)); [done|auto].
Qed.

(** Saving a row leaves the rows under other keys where they are. *)
Lemma elem_of_save_other row table r :
  pk r ≠ pk row → r ∈ save row table ↔ r ∈ table.
Proof.
  intros Hne. unfold save. destruct (objects_get (pk row) table) as [?|].
  - rewrite list_elem_of_fmap. split.
    + intros (x & -> & Hx). by case_bool_decide.
    + intros Hr. exists r. by rewrite bool_decide_false.
  - rewrite elem_of_app, list_elem_of_singleton.
    split; [intros [Hr| ->]; [exact Hr|done] | by left].
Qed.
End orm_facts.

Lemma set_avatar_type_same (u : User.t) :
  User.set_avatar_type (User.avatar_type u) u = u.
Proof. by destruct u. Qed.

(** The avatars of a user after [avatar_set.update(primary=b)]. *)
Lemma avatar_set_after_update (user : User.t) (b : bool) (s : Store)
    (table : list Avatar.t) :
  avatars s = avatar_set_update_primary user b table →
  avatar_set s user
  = Avatar.set_primary b <$> filter (λ a, Avatar.user_id a = User.id user) table.
Proof.
  unfold avatar_set. intros ->.
  induction table as [|a table IH]; [done|].
  cbn [avatar_set_update_primary fmap list_fmap] in *.
  rewrite !filter_cons. case_bool_decide as Ha.
  - rewrite !decide_True by done. cbn. by rewrite <- IH.
  - rewrite !decide_False by done. apply IH.
Qed.

(** ** The decorator *)

(** X2: whoever is logged in reaches the view: the owner and the
    administrator directly, every other member through [login_required]. *)
Lemma admin_or_owner_required_logged_in (func : view) request user_id s :
  is_authenticated (Request.user request) = true →
  admin_or_owner_required func request user_id s = func request user_id s.
Proof.
  intros Hauth. unfold admin_or_owner_required, login_required.
  rewrite Hauth. destruct (Request.user request); [done|].
  by destruct (_ || _).
Qed.

(** X1: an anonymous caller is sent to the login page and the view does
    not run. *)
Lemma admin_or_owner_required_anonymous (func : view) request user_id s :
  Request.user request = AnonymousUser →
  admin_or_owner_required func request user_id s
  = (HttpResponseRedirect LOGIN_URL, s).
Proof.
  intros Hanon. unfold admin_or_owner_required, login_required.
  by rewrite Hanon.
Qed.

(** C4 (the defect): a logged-in member who is neither the owner nor an
    administrator posts to [enable_gravatar] for user 1; the view runs, the
    avatar type of user 1 becomes "g" and the flag of the avatar is
    cleared. *)
Theorem enable_gravatar_by_other_member :
  User.is_administrator Sample.member = false
  ∧ User.id Sample.member ≠ 1
  ∧ enable_gravatar (Sample.post Sample.member ∅) 1
      (Sample.store "a" [Sample.X true])
    = (redirect_to_show_list 1, Sample.store "g" [Sample.X false]).
Proof. split; [done|]. split; [done|]. reflexivity. Qed.

(** ** set_primary *)

(** What [Avatar_save] does for an avatar flagged primary. *)
Lemma Avatar_save_primary (avatar : Avatar.t) (s : Store) (owner : User.t) :
  Avatar.primary avatar = true →
  objects_get (Avatar.user_id avatar) (users s) = Some owner →
  User.avatar_type
    <$> objects_get (Avatar.user_id avatar) (users (Avatar_save avatar s))
  = Some "a"
  ∧ objects_get (Avatar.id avatar) (avatars (Avatar_save avatar s)) = Some avatar
  ∧ (∀ a, a ∈ avatars (Avatar_save avatar s) →
          Avatar.user_id a = Avatar.user_id avatar →
          Avatar.id a ≠ Avatar.id avatar → Avatar.primary a = false)
  ∧ avatar_updated (Avatar_save avatar s) = avatar_updated s.
Proof.
  intros Hflag Howner. unfold Avatar_save. rewrite Hflag, Howner.
  cbn [users avatars avatar_updated].
  pose proof (objects_get_pk _ _ _ Howner) as Hpk.
  split; [|split; [|split; [|done]]].
  - rewrite <- Hpk.
    change (pk owner) with (pk (User.set_avatar_type "a" owner)).
    by rewrite objects_get_save.
  - exact (objects_get_save avatar _).
  - intros a Ha Hmine Hother.
    apply elem_of_save_other in Ha; [|exact Hother].
    apply list_elem_of_fmap in Ha as (x & -> & _).
    destruct (bool_decide (Avatar.user_id x = Avatar.user_id avatar
                           ∧ Avatar.id x ≠ Avatar.id avatar)) eqn:Hx; [done|].
    apply bool_decide_eq_false in Hx. by destruct Hx.
Qed.

Section set_primary_facts.
Context `{Collaborators}.

(** C5: a successful selection of an avatar of the user leaves the user on
    avatar type "a" with the chosen avatar flagged primary and every other
    avatar of the user not flagged. *)
Theorem set_primary_selects s request user_id choice caller user avatar :
  Request.user request = LoggedIn caller →
  User.is_administrator caller || bool_decide (User.id caller = user_id)
    = true →
  Request.method request = "POST" →
  objects_get user_id (users s) = Some user →
  Request.POST request !! "choice" = Some choice →
  PrimaryAvatarForm_is_valid user choice (avatar_set s user) = true →
  objects_get choice (avatars s) = Some avatar →
  Avatar.user_id avatar = user_id →
  ∃ s', set_primary request user_id s = (redirect_to_show_list user_id, s')
    ∧ selected_as_claimed s' user_id choice.
Proof.
  intros Hcaller Hauth Hpost Huser Hchoice Hvalid Havatar Hmine.
  unfold set_primary, admin_or_owner_required, set_primary_func.
  rewrite Hcaller, Hauth, Huser, Hpost, Hchoice, Hvalid, Havatar.
  rewrite bool_decide_true by done.
  eexists. split; [done|].
  pose proof (objects_get_pk _ _ _ Havatar) as Hpk.
  change (Avatar.id avatar = choice) in Hpk. subst choice user_id.
  destruct (Avatar_save_primary (Avatar.set_primary true avatar) s user
              eq_refl Huser) as (Hty & Hrow & Hothers & _).
  unfold selected_as_claimed. cbn [users avatars avatar_updated_send].
  split; [exact Hty|].
  split; [exact (f_equal (fmap Avatar.primary) Hrow)|exact Hothers].
Qed.
End set_primary_facts.

(** The owner, on gravatar with X flagged, selects Y. *)
Lemma set_primary_selects_witness :
  ∃ s', @set_primary Sample.collaborators
          (Sample.post (Sample.owner "g") {[ "choice" := 11 ]}) 1
          (Sample.store "g" [Sample.X true; Sample.Y false])
        = (redirect_to_show_list 1, s')
    ∧ selected_as_claimed s' 1 11.
Proof.
  apply (@set_primary_selects Sample.collaborators
           (Sample.store "g" [Sample.X true; Sample.Y false])
           (Sample.post (Sample.owner "g") {[ "choice" := 11 ]})
           1 11 (Sample.owner "g") (Sample.owner "g") (Sample.Y false));
    reflexivity.
Defined.

(** ** enable_gravatar *)

Section enable_gravatar_facts.
Context `{Collaborators}.

(** C7: a successful [enable_gravatar] leaves the user on avatar type
    "g" with the primary flag cleared on each of their avatars, and the
    listing of that state is the gravatar entry, primary, followed by the
    uploaded avatars and the default entry, none of them primary. *)
Theorem enable_gravatar_effect s request user_id caller user size :
  Request.user request = LoggedIn caller →
  User.is_administrator caller || bool_decide (User.id caller = user_id)
    = true →
  Request.method request = "POST" →
  objects_get user_id (users s) = Some user →
  ∃ s' user',
    enable_gravatar request user_id s = (redirect_to_show_list user_id, s')
    ∧ objects_get user_id (users s') = Some user'
    ∧ User.avatar_type user' = "g"
    ∧ avatar_set s' user' = Avatar.set_primary false <$> avatar_set s user
    ∧ (∀ a, a ∈ avatar_set s' user' → Avatar.primary a = false)
    ∧ ∃ avatar_data,
        get_avatar_data s' user' size
        = Return (avatar_data, bool_decide (0 < length (avatar_set s user))%nat)
        ∧ avatar_data
          = gravatar_datum user' size
            :: (uploaded_datum size <$> avatar_set s' user')
            ++ [default_datum user' size]
        ∧ Datum.is_primary <$> avatar_data
          = true :: replicate (length (avatar_set s user) + 1) false.
Proof.
  intros Hcaller Hauth Hpost Huser.
  unfold enable_gravatar, admin_or_owner_required, enable_gravatar_func,
    enable_type_func.
  rewrite Hcaller, Hauth, Hpost, Huser. rewrite bool_decide_true by done.
  pose proof (objects_get_pk _ _ _ Huser) as Hpk.
  set (user' := User.set_avatar_type "g" user).
  set (s' := with_avatars _ _).
  assert (avatar_set s' user'
          = Avatar.set_primary false <$> avatar_set s user) as Hset.
  { by rewrite (avatar_set_after_update user' false s' (avatars s)). }
  assert (∀ a, a ∈ avatar_set s' user' → Avatar.primary a = false) as Hclear.
  { intros a. rewrite Hset, list_elem_of_fmap. by intros (? & -> & _). }
  exists s', user'. split; [done|]. split.
  { subst user_id. exact (objects_get_save user' (users s)). }
  split; [done|]. split; [done|]. split; [done|].
  assert (Forall (λ x, ¬ flagged x) (uploaded_datum size <$> avatar_set s' user'))
    as Hup.
  { apply Forall_fmap, Forall_forall. intros a Ha. unfold flagged. cbn.
    by rewrite (Hclear a Ha). }
  eexists. split; [|split; [reflexivity|]].
  - unfold get_avatar_data. rewrite candidates_unfold.
    rewrite normalize_at_most_one.
    + rewrite insert_primary_first_split by done.
      change (Return ?x ≫= ?f) with (f x). cbn beta.
      do 3 f_equal. by rewrite Hset, length_fmap.
    + rewrite filter_app, filter_flagged_none by done.
      rewrite filter_cons_True, filter_cons_False by done. cbn. lia.
  - rewrite fmap_cons, fmap_app, Hset, <- !list_fmap_compose, replicate_add.
    do 2 f_equal.
    generalize (avatar_set s user). clear.
    induction l as [|a l IH]; cbn; by f_equal.
Qed.
End enable_gravatar_facts.

(** Scenario C: X primary and Y not, then [enable_gravatar]. *)
Lemma enable_gravatar_effect_witness :
  ∃ s' user',
    enable_gravatar (Sample.post (Sample.owner "a") ∅) 1
      (Sample.store "a" [Sample.X true; Sample.Y false])
    = (redirect_to_show_list 1, s')
    ∧ objects_get 1 (users s') = Some user'
    ∧ User.avatar_type user' = "g"
    ∧ avatar_set s' user' = [Sample.X false; Sample.Y false]
    ∧ (∀ a, a ∈ avatar_set s' user' → Avatar.primary a = false)
    ∧ ∃ avatar_data,
        @get_avatar_data Sample.collaborators s' user' 128
        = Return (avatar_data, true)
        ∧ avatar_data
          = @gravatar_datum Sample.collaborators user' 128
            :: (@uploaded_datum Sample.collaborators 128 <$> avatar_set s' user')
            ++ [@default_datum Sample.collaborators user' 128]
        ∧ Datum.is_primary <$> avatar_data = [true; false; false; false].
Proof.
  apply (@enable_gravatar_effect Sample.collaborators
           (Sample.store "a" [Sample.X true; Sample.Y false])
           (Sample.post (Sample.owner "a") ∅) 1
           (Sample.owner "a") (Sample.owner "a") 128);
    reflexivity.
Defined.

(** ** delete *)

Section delete_facts.
Implicit Types (s : Store) (avatar : Avatar.t) (caller owner : User.t).

(** The store an authorized [delete] leaves. *)
Lemma delete_authorized s request avatar_id avatar caller owner :
  objects_get avatar_id (avatars s) = Some avatar →
  Request.method request = "POST" →
  Request.user request = LoggedIn caller →
  User.is_administrator_or_moderator caller
    || bool_decide (Avatar.user_id avatar = User.id caller) = true →
  objects_get (Avatar.user_id avatar) (users s) = Some owner →
  delete request avatar_id s
  = (redirect_to_show_list (Avatar.user_id avatar),
     {| users := save owner (users s);
        avatars :=
          if bool_decide (User.avatar_type owner = "g")
          then avatar_set_update_primary owner false
                 (delete_row avatar_id (avatars s))
          else delete_row avatar_id (avatars s);
        avatar_updated := avatar_updated s |}).
Proof.
  intros Havatar Hpost Hcaller Hauth Howner. unfold delete.
  rewrite Havatar, Hpost, Hcaller, Hauth, Howner.
  rewrite bool_decide_true by done. cbn [andb].
  rewrite set_avatar_type_same.
  apply objects_get_pk in Havatar. change (Avatar.id avatar = avatar_id) in Havatar.
  rewrite Havatar.
  by destruct (bool_decide (User.avatar_type owner = "g")).
Qed.

(** C8: an authorized [delete] reads the avatar type of the owner from
    the store as it is before the row goes; the remaining avatars of the
    owner have their flag cleared when that type is "g", and with any
    other type the table is the old one without the deleted row. *)
Theorem delete_clears_iff_gravatar s request avatar_id avatar caller owner :
  objects_get avatar_id (avatars s) = Some avatar →
  Request.method request = "POST" →
  Request.user request = LoggedIn caller →
  User.is_administrator_or_moderator caller
    || bool_decide (Avatar.user_id avatar = User.id caller) = true →
  objects_get (Avatar.user_id avatar) (users s) = Some owner →
  ∃ s', delete request avatar_id s
        = (redirect_to_show_list (Avatar.user_id avatar), s')
    ∧ objects_get avatar_id (avatars s') = None
    ∧ (User.avatar_type owner = "g" →
         avatars s'
         = (λ a, if bool_decide (Avatar.user_id a = Avatar.user_id avatar)
                 then Avatar.set_primary false a else a)
             <$> filter (λ a, Avatar.id a ≠ avatar_id) (avatars s))
    ∧ (User.avatar_type owner ≠ "g" →
         avatars s' = filter (λ a, Avatar.id a ≠ avatar_id) (avatars s))
    ∧ avatar_updated s' = avatar_updated s.
Proof.
  intros Havatar Hpost Hcaller Hauth Howner.
  rewrite (delete_authorized _ _ _ _ _ _ Havatar Hpost Hcaller Hauth Howner).
  eexists. split; [done|]. cbn [avatars avatar_updated].
  pose proof (objects_get_pk _ _ _ Howner) as Hpk.
  change (User.id owner = Avatar.user_id avatar) in Hpk.
  repeat split.
  - destruct (bool_decide (User.avatar_type owner = "g"));
      [|apply objects_get_delete_row].
    apply objects_get_None, Forall_forall. intros a Ha.
    apply list_elem_of_fmap in Ha as (x & -> & Hx).
    apply list_elem_of_filter in Hx as [Hx _].
    by destruct (bool_decide (Avatar.user_id x = User.id owner)).
  - intros Hg. rewrite bool_decide_true by done.
    unfold avatar_set_update_primary. by rewrite Hpk.
  - intros Hg. by rewrite bool_decide_false.
Qed.

(** C10: after an authorized [delete] the owner is stored with the
    avatar type they had before. *)
Theorem delete_keeps_avatar_type s request avatar_id avatar caller owner :
  objects_get avatar_id (avatars s) = Some avatar →
  Request.method request = "POST" →
  Request.user request = LoggedIn caller →
  User.is_administrator_or_moderator caller
    || bool_decide (Avatar.user_id avatar = User.id caller) = true →
  objects_get (Avatar.user_id avatar) (users s) = Some owner →
  ∃ s', delete request avatar_id s
        = (redirect_to_show_list (Avatar.user_id avatar), s')
    ∧ User.avatar_type <$> objects_get (Avatar.user_id avatar) (users s')
      = User.avatar_type <$> objects_get (Avatar.user_id avatar) (users s).
Proof.
  intros Havatar Hpost Hcaller Hauth Howner.
  rewrite (delete_authorized _ _ _ _ _ _ Havatar Hpost Hcaller Hauth Howner).
  eexists. split; [done|]. cbn [users]. rewrite Howner.
  apply objects_get_pk in Howner. rewrite <- Howner.
  by rewrite objects_get_save.
Qed.
End delete_facts.

(** The owner is on gravatar and deletes X: the flag of Y is cleared. *)
Lemma delete_clears_iff_gravatar_witness :
  ∃ s', delete (Sample.post (Sample.owner "g") ∅) 10
          (Sample.store "g" [Sample.X true; Sample.Y true])
        = (redirect_to_show_list 1, s')
    ∧ objects_get 10 (avatars s') = None
    ∧ ("g" = "g" → avatars s' = [Sample.Y false])
    ∧ ("g" ≠ "g" → avatars s' = [Sample.Y true])
    ∧ avatar_updated s' = [].
Proof.
  apply (delete_clears_iff_gravatar
           (Sample.store "g" [Sample.X true; Sample.Y true])
           (Sample.post (Sample.owner "g") ∅) 10
           (Sample.X true) (Sample.owner "g") (Sample.owner "g"));
    reflexivity.
Defined.

(** The owner is on the default avatar and deletes X. *)
Lemma delete_keeps_avatar_type_witness :
  ∃ s', delete (Sample.post (Sample.owner "n") ∅) 10
          (Sample.store "n" [Sample.X true; Sample.Y false])
        = (redirect_to_show_list 1, s')
    ∧ User.avatar_type <$> objects_get 1 (users s') = Some "n".
Proof.
  apply (delete_keeps_avatar_type
           (Sample.store "n" [Sample.X true; Sample.Y false])
           (Sample.post (Sample.owner "n") ∅) 10
           (Sample.X true) (Sample.owner "n") (Sample.owner "n"));
    reflexivity.
Defined.

(** * Further properties of the views *)

(** ** The decorator, case by case *)

Lemma admin_or_owner_required_unfold (func : view) request user_id s :
  admin_or_owner_required func request user_id s
  = if is_authenticated (Request.user request)
    then func request user_id s
    else (HttpResponseRedirect LOGIN_URL, s).
Proof.
  unfold admin_or_owner_required, login_required.
  destruct (Request.user request); [done|]. cbn. by destruct (_ || _).
Qed.

Lemma admin_or_owner_required_anonymous_witness :
  admin_or_owner_required enable_gravatar_func
    (Request.Build AnonymousUser "POST" ∅ ∅) 1
    (Sample.store "a" [Sample.X true])
  = (HttpResponseRedirect LOGIN_URL, Sample.store "a" [Sample.X true]).
Proof.
  apply (admin_or_owner_required_anonymous enable_gravatar_func
           (Request.Build AnonymousUser "POST" ∅ ∅)).
  reflexivity.
Defined.

Lemma admin_or_owner_required_logged_in_witness :
  admin_or_owner_required disable_gravatar_func
    (Sample.post Sample.member ∅) 1 (Sample.store "g" [])
  = disable_gravatar_func (Sample.post Sample.member ∅) 1 (Sample.store "g" []).
Proof.
  apply (admin_or_owner_required_logged_in disable_gravatar_func
           (Sample.post Sample.member ∅)).
  reflexivity.
Defined.

(** ** Requests that change nothing *)

Section unchanged_facts.
Context `{Collaborators}.
Implicit Types (s : Store) (request : Request.t).

(** X3: a request whose method is not POST leaves the store as it is, whatever
    the view and whoever the caller. *)
Theorem views_ignore_other_methods request id s :
  Request.method request ≠ "POST" →
  (set_primary request id s).2 = s
  ∧ (upload request id s).2 = s
  ∧ (delete request id s).2 = s
  ∧ (enable_gravatar request id s).2 = s
  ∧ (enable_default_avatar request id s).2 = s
  ∧ (disable_gravatar request id s).2 = s.
Proof.
  intros Hget.
  unfold set_primary, upload, enable_gravatar, enable_default_avatar,
    disable_gravatar.
  rewrite !admin_or_owner_required_unfold.
  unfold set_primary_func, upload_func, delete, enable_gravatar_func,
    enable_default_avatar_func, enable_type_func, disable_gravatar_func.
  rewrite !bool_decide_false by done. cbn [andb].
  destruct (is_authenticated (Request.user request));
    destruct (objects_get id (users s));
    destruct (objects_get id (avatars s)); done.
Qed.

(** X4: a logged-in caller asking for a user that does not exist: [set_primary]
    and [upload] answer 404 whatever the method; the three views that look
    the user up inside the POST branch answer 404 on a POST and redirect to
    the listing otherwise.  The store is unchanged in every case. *)
Theorem views_on_missing_user request user_id s :
  is_authenticated (Request.user request) = true →
  objects_get user_id (users s) = None →
  set_primary request user_id s = (Http404, s)
  ∧ upload request user_id s = (Http404, s)
  ∧ ∀ v, v ∈ [enable_gravatar; enable_default_avatar; disable_gravatar] →
         v request user_id s
         = (if bool_decide (Request.method request = "POST")
            then Http404 else redirect_to_show_list user_id, s).
Proof.
  intros Hauth Hnone.
  unfold set_primary, upload. rewrite !admin_or_owner_required_unfold, Hauth.
  unfold set_primary_func, upload_func. rewrite Hnone.
  split; [done|]. split; [done|].
  intros v Hv. repeat (apply elem_of_cons in Hv as [->|Hv]);
    [..|by apply elem_of_nil in Hv];
    unfold enable_gravatar, enable_default_avatar, disable_gravatar;
    rewrite admin_or_owner_required_unfold, Hauth;
    unfold enable_gravatar_func, enable_default_avatar_func, enable_type_func,
      disable_gravatar_func;
    rewrite Hnone; by destruct (bool_decide _).
Qed.

(** X5: a selection that names no choice or that the form rejects, and an
    upload without a file or that the form rejects, change nothing and
    redirect to the listing. *)
Theorem rejected_forms_change_nothing request user_id s user :
  is_authenticated (Request.user request) = true →
  objects_get user_id (users s) = Some user →
  (match Request.POST request !! "choice" with
   | Some choice =>
       PrimaryAvatarForm_is_valid user choice (avatar_set s user) = false
   | None => True
   end →
   set_primary request user_id s = (redirect_to_show_list user_id, s))
  ∧ (match Request.FILES request !! "avatar" with
     | Some image_file =>
         UploadAvatarForm_is_valid user image_file (avatar_set s user) = false
     | None => True
     end →
     upload request user_id s = (redirect_to_show_list user_id, s)).
Proof.
  intros Hauth Huser.
  unfold set_primary, upload. rewrite !admin_or_owner_required_unfold, Hauth.
  unfold set_primary_func, upload_func. rewrite Huser.
  split; intros Hrej; destruct (bool_decide _); try done.
  - destruct (Request.POST request !! "choice"); [by rewrite Hrej|done].
  - destruct (Request.FILES request !! "avatar"); [by rewrite Hrej|done].
Qed.
End unchanged_facts.

Lemma views_ignore_other_methods_witness :
  let request := Request.Build (LoggedIn (Sample.owner "a")) "GET"
                   {[ "choice" := 11 ]} {[ "avatar" := "z.png" ]} in
  let s := Sample.store "a" [Sample.X true; Sample.Y false] in
  (@set_primary Sample.collaborators request 1 s).2 = s
  ∧ (@upload Sample.collaborators request 1 s).2 = s
  ∧ (delete request 1 s).2 = s
  ∧ (enable_gravatar request 1 s).2 = s
  ∧ (enable_default_avatar request 1 s).2 = s
  ∧ (disable_gravatar request 1 s).2 = s.
Proof.
  apply (@views_ignore_other_methods Sample.collaborators). discriminate.
Defined.

Lemma views_on_missing_user_witness :
  let request := Sample.post Sample.member ∅ in
  let s := Sample.store "a" [] in
  @set_primary Sample.collaborators request 7 s = (Http404, s)
  ∧ @upload Sample.collaborators request 7 s = (Http404, s)
  ∧ ∀ v, v ∈ [enable_gravatar; enable_default_avatar; disable_gravatar] →
         v request 7 s = (Http404, s).
Proof.
  apply (@views_on_missing_user Sample.collaborators); reflexivity.
Defined.

Lemma rejected_forms_change_nothing_witness :
  let request := Sample.post (Sample.owner "a") {[ "choice" := 99 ]} in
  let s := Sample.store "a" [Sample.X true] in
  (False = False →
   @set_primary Sample.collaborators request 1 s = (redirect_to_show_list 1, s))
  ∧ (True →
     @upload Sample.collaborators request 1 s = (redirect_to_show_list 1, s)).
Proof.
  destruct (@rejected_forms_change_nothing Sample.collaborators
              (Sample.post (Sample.owner "a") {[ "choice" := 99 ]}) 1
              (Sample.store "a" [Sample.X true]) (Sample.owner "a")
              eq_refl eq_refl) as [Hchoice Hfile].
  split; intros _; [apply Hchoice|apply Hfile]; reflexivity.
Defined.

(** ** More on delete *)

Section orm_more.
Context {R : Type} `{Model R}.
Implicit Types (row r : R) (table : list R) (k : Z).

(** Saving a row does not change what is read under another key. *)
Lemma objects_get_save_other row table k :
  k ≠ pk row → objects_get k (save row table) = objects_get k table.
Proof.
  intros Hne. unfold save.
  destruct (objects_get (pk row) table) as [?|] eqn:Hget; unfold objects_get.
  - clear Hget. induction table as [|x table IH]; [done|]. cbn.
    destruct (bool_decide (pk x = pk row)) eqn:Hx.
    + apply bool_decide_eq_true in Hx.
      rewrite !bool_decide_false by congruence. apply IH.
    + destruct (bool_decide (pk x = k)); [done|apply IH].
  - clear Hget. induction table as [|x table IH]; cbn.
    + by rewrite bool_decide_false.
    + destruct (bool_decide (pk x = k)); [done|apply IH].
Qed.

(** A second save under the same key overwrites the first. *)
Lemma save_save row1 row2 table r :
  pk row1 = pk row2 → objects_get (pk row1) table = Some r →
  save row2 (save row1 table) = save row2 table.
Proof.
  intros Hpk Hget. unfold save at 2. rewrite Hget.
  unfold save. rewrite <- Hpk, Hget.
  assert (objects_get (pk row1)
            ((λ r0, if bool_decide (pk r0 = pk row1) then row1 else r0) <$> table)
          = Some row1) as ->.
  { pose proof (objects_get_save row1 table) as Hsaved.
    unfold save in Hsaved. by rewrite Hget in Hsaved. }
  rewrite <- list_fmap_compose. apply list_fmap_ext. intros i x _. cbn.
  destruct (bool_decide (pk x = pk row1)) eqn:Hx; [|by rewrite Hx].
  by rewrite bool_decide_true.
Qed.
End orm_more.

Section delete_more.
Implicit Types (s : Store) (avatar : Avatar.t) (caller owner : User.t).

(** X6: [delete] turns away the anonymous caller and the member who is neither
    moderator, administrator nor owner of the avatar: nothing changes and
    the answer is the redirect to the listing of the avatar's owner. *)
Theorem delete_refused request avatar_id s avatar :
  objects_get avatar_id (avatars s) = Some avatar →
  match Request.user request with
  | AnonymousUser => True
  | LoggedIn caller =>
      User.is_administrator_or_moderator caller = false
      ∧ Avatar.user_id avatar ≠ User.id caller
  end →
  delete request avatar_id s
  = (redirect_to_show_list (Avatar.user_id avatar), s).
Proof.
  intros Havatar Hcaller. unfold delete. rewrite Havatar.
  destruct (Request.user request) as [|caller].
  - by rewrite andb_false_r.
  - destruct Hcaller as [-> Hother].
    rewrite (bool_decide_false (Avatar.user_id avatar = _)) by done.
    cbn [orb]. by rewrite andb_false_r.
Qed.

(** X7: whenever [delete] changes the store, the request was a POST for an
    existing avatar by a logged-in moderator, administrator or owner. *)
Theorem delete_changes_only_when_authorized request avatar_id s :
  (delete request avatar_id s).2 ≠ s →
  Request.method request = "POST"
  ∧ ∃ caller avatar,
      Request.user request = LoggedIn caller
      ∧ objects_get avatar_id (avatars s) = Some avatar
      ∧ (User.is_administrator_or_moderator caller = true
         ∨ Avatar.user_id avatar = User.id caller).
Proof.
  unfold delete. intros Hchanged.
  destruct (objects_get avatar_id (avatars s)) as [avatar|]; [|done].
  destruct (bool_decide (Request.method request = "POST")) eqn:Hpost; [|done].
  apply bool_decide_eq_true in Hpost. split; [done|].
  destruct (Request.user request) as [|caller]; [done|].
  exists caller, avatar. split; [done|]. split; [done|].
  cbn [andb] in Hchanged.
  destruct (User.is_administrator_or_moderator caller); [by left|].
  destruct (bool_decide (Avatar.user_id avatar = User.id caller)) eqn:Hown;
    [|done].
  right. by apply bool_decide_eq_true in Hown.
Qed.

(** X8: an authorized [delete] leaves the avatars of every other user and the
    row of every other user as they were. *)
Theorem delete_leaves_others s request avatar_id avatar caller owner :
  objects_get avatar_id (avatars s) = Some avatar →
  Request.method request = "POST" →
  Request.user request = LoggedIn caller →
  User.is_administrator_or_moderator caller
    || bool_decide (Avatar.user_id avatar = User.id caller) = true →
  objects_get (Avatar.user_id avatar) (users s) = Some owner →
  ∀ other : User.t,
    User.id other ≠ Avatar.user_id avatar →
    avatar_set (delete request avatar_id s).2 other
    = filter (λ a, Avatar.id a ≠ avatar_id) (avatar_set s other)
    ∧ objects_get (User.id other) (users (delete request avatar_id s).2)
      = objects_get (User.id other) (users s).
Proof.
  intros Havatar Hpost Hcaller Hauth Howner other Hother.
  rewrite (delete_authorized _ _ _ _ _ _ Havatar Hpost Hcaller Hauth Howner).
  cbn [snd]. pose proof (objects_get_pk _ _ _ Howner) as Hpk.
  change (User.id owner = Avatar.user_id avatar) in Hpk. split.
  - unfold avatar_set. cbn [avatars].
    assert (filter (λ a, Avatar.user_id a = User.id other)
              (delete_row avatar_id (avatars s))
            = filter (λ a, Avatar.id a ≠ avatar_id)
                (filter (λ a, Avatar.user_id a = User.id other) (avatars s)))
      as Hdel.
    { unfold delete_row. rewrite !list_filter_filter.
      apply list_filter_iff. intros a. unfold pk, avatar_model. tauto. }
    destruct (bool_decide (User.avatar_type owner = "g")); [|done].
    rewrite <- Hdel. unfold avatar_set_update_primary.
    generalize (delete_row avatar_id (avatars s)). intros table.
    induction table as [|a table IH]; [done|].
    cbn [fmap list_fmap]. rewrite !filter_cons.
    destruct (bool_decide (Avatar.user_id a = User.id owner)) eqn:Ha.
    + apply bool_decide_eq_true in Ha.
      rewrite !decide_False by (cbn; congruence). apply IH.
    + destruct (decide _); by rewrite IH.
  - cbn [users]. apply objects_get_save_other.
    unfold pk, user_model. congruence.
Qed.
End delete_more.

Lemma delete_refused_witness :
  delete (Sample.post Sample.member ∅) 10 (Sample.store "a" [Sample.X true])
  = (redirect_to_show_list 1, Sample.store "a" [Sample.X true]).
Proof.
  apply (delete_refused (Sample.post Sample.member ∅) 10
           (Sample.store "a" [Sample.X true]) (Sample.X true)).
  - reflexivity.
  - split; [reflexivity|discriminate].
Defined.

Lemma delete_changes_only_when_authorized_witness :
  Request.method (Sample.post (Sample.owner "a") ∅) = "POST"
  ∧ ∃ caller avatar,
      Request.user (Sample.post (Sample.owner "a") ∅) = LoggedIn caller
      ∧ objects_get 10 (avatars (Sample.store "a" [Sample.X true]))
        = Some avatar
      ∧ (User.is_administrator_or_moderator caller = true
         ∨ Avatar.user_id avatar = User.id caller).
Proof.
  apply (delete_changes_only_when_authorized
           (Sample.post (Sample.owner "a") ∅) 10
           (Sample.store "a" [Sample.X true])).
  vm_compute. discriminate.
Defined.

Lemma delete_leaves_others_witness :
  avatar_set
    (delete (Sample.post (Sample.owner "g") ∅) 10
       (Sample.store "g" [Sample.X true; Avatar.Build 20 2 true "m.png"])).2
    Sample.member
  = [Avatar.Build 20 2 true "m.png"]
  ∧ objects_get 2
      (users
         (delete (Sample.post (Sample.owner "g") ∅) 10
            (Sample.store "g" [Sample.X true; Avatar.Build 20 2 true "m.png"])).2)
    = Some Sample.member.
Proof.
  apply (delete_leaves_others
           (Sample.store "g" [Sample.X true; Avatar.Build 20 2 true "m.png"])
           (Sample.post (Sample.owner "g") ∅) 10
           (Sample.X true) (Sample.owner "g") (Sample.owner "g")
           eq_refl eq_refl eq_refl eq_refl eq_refl Sample.member).
  discriminate.
Defined.

(** ** More on the listing *)

Section listing_more.
Context `{Collaborators}.
Implicit Types (s : Store) (user : User.t) (size : Z) (l : list Datum.t).

Lemma normalize_returns l :
  (length (filter flagged l) ≤ 1)%nat → ∃ l', normalize l = Return l'.
Proof.
  intros Hlen. destruct (filter flagged l) as [|v [|??]] eqn:Hf.
  - rewrite normalize_none by done. eauto.
  - destruct (normalize_one _ _ Hf) as (l1 & l2 & _ & -> & _). eauto.
  - cbn in Hlen. lia.
Qed.

(** What [normalize] returns is the list it was given with at most one
    entry moved: a permutation in which the entries that are not primary
    keep their order. *)
Lemma normalize_moves_one l l' :
  normalize l = Return l' →
  l' ≡ₚ l ∧ filter (λ v, ¬ flagged v) l' = filter (λ v, ¬ flagged v) l.
Proof.
  intros Hnorm. destruct (filter flagged l) as [|v [|w vs]] eqn:Hf.
  - rewrite normalize_none in Hnorm by done. by injection Hnorm as <-.
  - destruct (normalize_one _ _ Hf) as (l1 & l2 & -> & Hret & _).
    rewrite Hret in Hnorm. injection Hnorm as <-.
    apply filter_flagged_split in Hf as (_ & _ & _ & _ & Hv & _).
    split; [apply Permutation_middle|].
    rewrite filter_cons_False by (intros Hn; by apply Hn).
    rewrite !filter_app. f_equal.
    by rewrite filter_cons_False by (intros Hn; by apply Hn).
  - rewrite normalize_raises in Hnorm by (rewrite Hf; cbn; lia). done.
Qed.

(** How many candidates are flagged, read on the state of the user. *)
Lemma candidates_flagged_count s user size :
  length (filter flagged (candidates s user size))
  = (length (filter (λ a, Avatar.primary a = true) (avatar_set s user))
     + (if bool_decide (User.avatar_type user = "g") then 1 else 0)
     + (if bool_decide (User.avatar_type user = "n") then 1 else 0))%nat.
Proof.
  rewrite candidates_unfold, filter_app, length_app, <- Nat.add_assoc. f_equal.
  - induction (avatar_set s user) as [|a l IH]; [done|].
    cbn [fmap list_fmap]. rewrite !filter_cons.
    change (flagged (uploaded_datum size a)) with (Avatar.primary a = true).
    destruct (decide (Avatar.primary a = true)); cbn [length]; by rewrite IH.
  - rewrite !filter_cons, filter_nil.
    destruct (decide (flagged (gravatar_datum user size)))
      as [Hg|Hg%not_true_is_false],
      (decide (flagged (default_datum user size)))
      as [Hn|Hn%not_true_is_false];
      unfold flagged, gravatar_datum, default_datum in Hg, Hn;
      cbn [Datum.is_primary] in Hg, Hn; by rewrite Hg, Hn.
Qed.

(** X9: whatever [get_avatar_data] returns holds the entries built for the user,
    each once: the uploaded avatars, gravatar and default; the entries that
    are not primary are in the order in which they were built. *)
Theorem get_avatar_data_keeps_entries s user size avatar_data b :
  get_avatar_data s user size = Return (avatar_data, b) →
  avatar_data ≡ₚ candidates s user size
  ∧ filter (λ v, ¬ flagged v) avatar_data
    = filter (λ v, ¬ flagged v) (candidates s user size)
  ∧ length avatar_data = (length (avatar_set s user) + 2)%nat.
Proof.
  unfold get_avatar_data. intros Hget.
  destruct (normalize (candidates s user size)) as [l'|e] eqn:Hnorm; [|done].
  injection Hget as <- _.
  destruct (normalize_moves_one _ _ Hnorm) as [Hperm Hrest].
  split; [done|]. split; [done|].
  rewrite Hperm, candidates_unfold, length_app, length_fmap. done.
Qed.

(** X10: the call raises exactly when the user has more than one avatar flagged
    primary, or has one while being on gravatar or on the default avatar;
    and [AttributeError] is the only exception it raises. *)
Theorem get_avatar_data_raises_iff s user size :
  (get_avatar_data s user size = Raise AttributeError
   ↔ (1 < length (filter (λ a, Avatar.primary a = true) (avatar_set s user)))%nat
     ∨ ((0 < length (filter (λ a, Avatar.primary a = true) (avatar_set s user)))%nat
        ∧ (User.avatar_type user = "g" ∨ User.avatar_type user = "n")))
  ∧ ∀ e, get_avatar_data s user size = Raise e → e = AttributeError.
Proof.
  pose proof (candidates_flagged_count s user size) as Hcount.
  set (n := length (filter _ (avatar_set s user))) in *. clearbody n.
  destruct (decide (1 < length (filter flagged (candidates s user size)))%nat)
    as [Hmany|Hfew].
  - unfold get_avatar_data. rewrite normalize_raises by done.
    split; [|by intros e [= <-]]. split; [intros _|done].
    destruct (decide (1 < n)%nat); [by left|right].
    rewrite Hcount in Hmany.
    destruct (decide (User.avatar_type user = "g")) as [Hg|Hg].
    { rewrite Hg in Hmany.
      rewrite (bool_decide_true ("g" = "g")), (bool_decide_false ("g" = "n"))
        in Hmany by done.
      split; [lia|by left]. }
    rewrite (bool_decide_false (_ = "g")) in Hmany by done.
    destruct (decide (User.avatar_type user = "n")) as [Hn|Hn].
    { rewrite Hn in Hmany.
      rewrite (bool_decide_true ("n" = "n")) in Hmany by done.
      split; [lia|by right]. }
    rewrite (bool_decide_false (_ = "n")) in Hmany by done. lia.
  - unfold get_avatar_data.
    destruct (normalize_returns (candidates s user size)) as [l' ->]; [lia|].
    split; [|done]. split; [done|]. intros [Hn|[Hn Hty]]; exfalso.
    + lia.
    + destruct Hty as [Hty|Hty]; rewrite Hty in Hcount.
      * rewrite (bool_decide_true ("g" = "g")) in Hcount by done. lia.
      * rewrite (bool_decide_true ("n" = "n")) in Hcount by done. lia.
Qed.

(** X11: a user on uploaded avatars with none of them flagged gets the list in
    the order in which it was built, and no entry of it is primary. *)
Theorem get_avatar_data_unflagged s user size :
  User.avatar_type user ≠ "g" → User.avatar_type user ≠ "n" →
  Forall (λ a, Avatar.primary a = false) (avatar_set s user) →
  get_avatar_data s user size
  = Return (candidates s user size,
            bool_decide (0 < length (avatar_set s user))%nat)
  ∧ Forall (λ v, Datum.is_primary v = false) (candidates s user size).
Proof.
  intros Hg Hn Hflags.
  assert (Forall (λ v, Datum.is_primary v = false) (candidates s user size))
    as Hnone.
  { rewrite candidates_unfold. apply Forall_app. split.
    - apply Forall_fmap. eapply Forall_impl; [exact Hflags|]. by intros a Ha.
    - repeat constructor; cbn; by rewrite bool_decide_false. }
  split; [|done]. unfold get_avatar_data.
  rewrite normalize_none; [done|].
  apply filter_flagged_none. eapply Forall_impl; [exact Hnone|].
  intros v Hv. unfold flagged. by rewrite Hv.
Qed.
End listing_more.

Lemma get_avatar_data_keeps_entries_witness :
  let s := Sample.store "a" [Sample.X false; Sample.Y true] in
  let avatar_data :=
    @uploaded_datum Sample.collaborators 128
      <$> [Sample.Y true; Sample.X false] in
  let rest := [@gravatar_datum Sample.collaborators (Sample.owner "a") 128;
               @default_datum Sample.collaborators (Sample.owner "a") 128] in
  avatar_data ++ rest
    ≡ₚ @candidates Sample.collaborators s (Sample.owner "a") 128
  ∧ filter (λ v, ¬ flagged v) (avatar_data ++ rest)
    = filter (λ v, ¬ flagged v)
        (@candidates Sample.collaborators s (Sample.owner "a") 128)
  ∧ length (avatar_data ++ rest)
    = (length (avatar_set s (Sample.owner "a")) + 2)%nat.
Proof.
  apply (@get_avatar_data_keeps_entries Sample.collaborators
           (Sample.store "a" [Sample.X false; Sample.Y true])
           (Sample.owner "a") 128 _ true).
  reflexivity.
Defined.

Lemma get_avatar_data_unflagged_witness :
  let s := Sample.store "a" [Sample.X false] in
  @get_avatar_data Sample.collaborators s (Sample.owner "a") 128
  = Return (@candidates Sample.collaborators s (Sample.owner "a") 128, true)
  ∧ Forall (λ v, Datum.is_primary v = false)
      (@candidates Sample.collaborators s (Sample.owner "a") 128).
Proof.
  apply (@get_avatar_data_unflagged Sample.collaborators
           (Sample.store "a" [Sample.X false]) (Sample.owner "a") 128).
  - discriminate.
  - discriminate.
  - repeat constructor.
Defined.

(** ** enable_gravatar and enable_default_avatar together *)

Lemma avatar_set_update_primary_twice (u1 u2 : User.t) (b : bool)
    (table : list Avatar.t) :
  User.id u1 = User.id u2 →
  avatar_set_update_primary u2 b (avatar_set_update_primary u1 b table)
  = avatar_set_update_primary u2 b table.
Proof.
  intros Hid. unfold avatar_set_update_primary.
  rewrite <- list_fmap_compose. apply list_fmap_ext. intros i a _. cbn.
  rewrite Hid.
  destruct (bool_decide (Avatar.user_id a = User.id u2)) eqn:Ha; cbn;
    by rewrite Ha.
Qed.

Lemma enable_type_func_twice ty1 ty2 request user_id s :
  enable_type_func ty2 request user_id
    (enable_type_func ty1 request user_id s).2
  = enable_type_func ty2 request user_id s.
Proof.
  unfold enable_type_func.
  destruct (bool_decide (Request.method request = "POST")); [|done].
  destruct (objects_get user_id (users s)) as [user|] eqn:Huser;
    cbn [snd]; [|by rewrite Huser].
  pose proof (objects_get_pk _ _ _ Huser) as Hpk.
  cbn [users avatars with_users with_avatars].
  assert (objects_get user_id (save (User.set_avatar_type ty1 user) (users s))
          = Some (User.set_avatar_type ty1 user)) as ->.
  { rewrite <- Hpk. exact (objects_get_save (User.set_avatar_type ty1 user) _). }
  f_equal. unfold with_avatars, with_users. cbn [users avatars avatar_updated].
  f_equal.
  - apply (save_save _ _ _ user); [done|]. by rewrite <- Hpk in Huser.
  - by apply avatar_set_update_primary_twice.
Qed.

(** X12: of two of these requests in a row the second decides: the store and the
    answer are those of the second alone.  In particular each of the two
    views can be repeated without further effect. *)
Theorem enable_views_last_wins request user_id s :
  enable_default_avatar request user_id (enable_gravatar request user_id s).2
  = enable_default_avatar request user_id s
  ∧ enable_gravatar request user_id (enable_default_avatar request user_id s).2
    = enable_gravatar request user_id s
  ∧ enable_gravatar request user_id (enable_gravatar request user_id s).2
    = enable_gravatar request user_id s
  ∧ enable_default_avatar request user_id
      (enable_default_avatar request user_id s).2
    = enable_default_avatar request user_id s.
Proof.
  unfold enable_gravatar, enable_default_avatar.
  rewrite !admin_or_owner_required_unfold.
  destruct (is_authenticated (Request.user request)); [|done].
  unfold enable_gravatar_func, enable_default_avatar_func.
  repeat split; apply enable_type_func_twice.
Qed.

Lemma enable_type_func_leaves_others ty request user_id s (other : User.t) :
  User.id other ≠ user_id →
  avatar_set (enable_type_func ty request user_id s).2 other = avatar_set s other
  ∧ objects_get (User.id other) (users (enable_type_func ty request user_id s).2)
    = objects_get (User.id other) (users s)
  ∧ avatar_updated (enable_type_func ty request user_id s).2 = avatar_updated s.
Proof.
  intros Hother. unfold enable_type_func.
  destruct (bool_decide (Request.method request = "POST")); [|done].
  destruct (objects_get user_id (users s)) as [user|] eqn:Huser; [|done].
  pose proof (objects_get_pk _ _ _ Huser) as Hpk.
  change (User.id user = user_id) in Hpk.
  cbn [snd]. split; [|split; [|done]].
  - unfold avatar_set. cbn [avatars with_avatars with_users].
    unfold avatar_set_update_primary. cbn [User.id User.set_avatar_type].
    induction (avatars s) as [|a table IH]; [done|].
    cbn [fmap list_fmap]. rewrite !filter_cons.
    destruct (bool_decide (Avatar.user_id a = User.id user)) eqn:Ha.
    + apply bool_decide_eq_true in Ha.
      rewrite !decide_False by (cbn; congruence). apply IH.
    + destruct (decide _); by rewrite IH.
  - cbn [users with_avatars with_users]. apply objects_get_save_other.
    unfold pk, user_model. cbn. congruence.
Qed.

(** X13: neither view touches another user: the avatars and the row of every
    other user stay as they were, and no signal is sent. *)
Theorem enable_views_leave_others request user_id s (other : User.t) :
  User.id other ≠ user_id →
  ∀ v, v ∈ [enable_gravatar; enable_default_avatar] →
    avatar_set (v request user_id s).2 other = avatar_set s other
    ∧ objects_get (User.id other) (users (v request user_id s).2)
      = objects_get (User.id other) (users s)
    ∧ avatar_updated (v request user_id s).2 = avatar_updated s.
Proof.
  intros Hother v Hv.
  repeat (apply elem_of_cons in Hv as [->|Hv]); [..|by apply elem_of_nil in Hv];
    unfold enable_gravatar, enable_default_avatar;
    rewrite admin_or_owner_required_unfold;
    (destruct (is_authenticated (Request.user request)); [|done]);
    by apply enable_type_func_leaves_others.
Qed.

Lemma enable_views_leave_others_witness :
  avatar_set
    (enable_gravatar (Sample.post (Sample.owner "a") ∅) 1
       (Sample.store "a" [Sample.X true; Avatar.Build 20 2 true "m.png"])).2
    Sample.member
  = [Avatar.Build 20 2 true "m.png"]
  ∧ objects_get 2
      (users
         (enable_gravatar (Sample.post (Sample.owner "a") ∅) 1
            (Sample.store "a" [Sample.X true; Avatar.Build 20 2 true "m.png"])).2)
    = Some Sample.member
  ∧ avatar_updated
      (enable_gravatar (Sample.post (Sample.owner "a") ∅) 1
         (Sample.store "a" [Sample.X true; Avatar.Build 20 2 true "m.png"])).2
    = [].
Proof.
  apply (enable_views_leave_others (Sample.post (Sample.owner "a") ∅) 1
           (Sample.store "a" [Sample.X true; Avatar.Build 20 2 true "m.png"])
           Sample.member).
  - discriminate.
  - by left.
Defined.

(** ** enable_default_avatar *)

Section enable_default_facts.
Context `{Collaborators}.

(** X14: a successful [enable_default_avatar] leaves the user on avatar type "n"
    with the flag cleared on each of their avatars; the listing of that
    state starts with the default entry, primary, and goes on with the
    uploaded avatars and the gravatar entry, none of them primary. *)
Theorem enable_default_avatar_effect s request user_id caller user size :
  Request.user request = LoggedIn caller →
  Request.method request = "POST" →
  objects_get user_id (users s) = Some user →
  ∃ s' user',
    enable_default_avatar request user_id s = (redirect_to_show_list user_id, s')
    ∧ objects_get user_id (users s') = Some user'
    ∧ User.avatar_type user' = "n"
    ∧ avatar_set s' user' = Avatar.set_primary false <$> avatar_set s user
    ∧ ∃ avatar_data,
        get_avatar_data s' user' size
        = Return (avatar_data, bool_decide (0 < length (avatar_set s user))%nat)
        ∧ avatar_data
          = default_datum user' size
            :: (uploaded_datum size <$> avatar_set s' user')
            ++ [gravatar_datum user' size]
        ∧ Datum.is_primary <$> avatar_data
          = true :: replicate (length (avatar_set s user) + 1) false.
Proof.
  intros Hcaller Hpost Huser.
  unfold enable_default_avatar.
  rewrite admin_or_owner_required_unfold, Hcaller. cbn [is_authenticated].
  unfold enable_default_avatar_func, enable_type_func.
  rewrite Hpost, Huser. rewrite bool_decide_true by done.
  pose proof (objects_get_pk _ _ _ Huser) as Hpk.
  set (user' := User.set_avatar_type "n" user).
  set (s' := with_avatars _ _).
  assert (avatar_set s' user'
          = Avatar.set_primary false <$> avatar_set s user) as Hset.
  { by rewrite (avatar_set_after_update user' false s' (avatars s)). }
  exists s', user'. split; [done|]. split.
  { subst user_id. exact (objects_get_save user' (users s)). }
  split; [done|]. split; [done|].
  assert (Forall (λ x, ¬ flagged x)
            ((uploaded_datum size <$> avatar_set s' user')
               ++ [gravatar_datum user' size])) as Hup.
  { apply Forall_app. split; [|by repeat constructor].
    rewrite Hset, <- list_fmap_compose. apply Forall_fmap, Forall_forall.
    by intros a _. }
  eexists. split; [|split; [reflexivity|]].
  - unfold get_avatar_data. rewrite candidates_unfold.
    rewrite (cons_middle (gravatar_datum user' size)), (assoc_L (++)).
    rewrite normalize_at_most_one.
    + rewrite insert_primary_first_split by done.
      change (Return ?x ≫= ?f) with (f x). cbn beta.
      rewrite app_nil_r, Hset, length_fmap. done.
    + rewrite filter_app, filter_flagged_none by done.
      by rewrite filter_cons_True.
  - rewrite fmap_cons, fmap_app, Hset, <- !list_fmap_compose, replicate_add.
    do 2 f_equal.
    generalize (avatar_set s user). clear.
    induction l as [|a l IH]; cbn; by f_equal.
Qed.
End enable_default_facts.

Lemma enable_default_avatar_effect_witness :
  ∃ s' user',
    enable_default_avatar (Sample.post (Sample.owner "g") ∅) 1
      (Sample.store "g" [Sample.X false; Sample.Y false])
    = (redirect_to_show_list 1, s')
    ∧ objects_get 1 (users s') = Some user'
    ∧ User.avatar_type user' = "n"
    ∧ avatar_set s' user' = [Sample.X false; Sample.Y false]
    ∧ ∃ avatar_data,
        @get_avatar_data Sample.collaborators s' user' 128
        = Return (avatar_data, true)
        ∧ avatar_data
          = @default_datum Sample.collaborators user' 128
            :: (@uploaded_datum Sample.collaborators 128 <$> avatar_set s' user')
            ++ [@gravatar_datum Sample.collaborators user' 128]
        ∧ Datum.is_primary <$> avatar_data = [true; false; false; false].
Proof.
  apply (@enable_default_avatar_effect Sample.collaborators
           (Sample.store "g" [Sample.X false; Sample.Y false])
           (Sample.post (Sample.owner "g") ∅) 1
           (Sample.owner "g") (Sample.owner "g") 128);
    reflexivity.
Defined.

(** ** disable_gravatar *)

Lemma objects_get_elem_of (table : list Avatar.t) (a : Avatar.t) :
  a ∈ table → is_Some (objects_get (Avatar.id a) table).
Proof.
  unfold objects_get. induction 1 as [a table|a x table _ IH]; cbn.
  - rewrite bool_decide_true by done. eauto.
  - destruct (bool_decide _); eauto.
Qed.

Lemma fmap_overwrite_absent (table : list Avatar.t) (k : Z) (x : Avatar.t) :
  k ∉ Avatar.id <$> table →
  (λ r, if bool_decide (pk r = k) then x else r) <$> table = table.
Proof.
  induction table as [|a table IH]; [done|].
  rewrite fmap_cons, not_elem_of_cons. intros [Ha Hrest].
  cbn [fmap list_fmap]. rewrite bool_decide_false by done.
  f_equal. by apply IH.
Qed.

(** With distinct keys, saving the first avatar of a user with its flag set
    changes that row only. *)
Lemma avatar_set_after_promote (table : list Avatar.t) (user : User.t)
    (first : Avatar.t) (rest : list Avatar.t) :
  NoDup (Avatar.id <$> table) →
  filter (λ a, Avatar.user_id a = User.id user) table = first :: rest →
  filter (λ a, Avatar.user_id a = User.id user)
    (save (Avatar.set_primary true first) table)
  = Avatar.set_primary true first :: rest.
Proof.
  intros Hkeys Hset.
  assert (first ∈ table) as Hin.
  { eapply (list_elem_of_filter (λ a, Avatar.user_id a = User.id user)).
    rewrite Hset. by left. }
  unfold save. destruct (objects_get_elem_of _ _ Hin) as [r Hr].
  change (pk (Avatar.set_primary true first)) with (Avatar.id first).
  rewrite Hr. clear r Hr Hin.
  induction table as [|x table IH]; [done|].
  rewrite fmap_cons in Hkeys. apply NoDup_cons in Hkeys as [Hx Hkeys].
  rewrite filter_cons in Hset. cbn [fmap list_fmap].
  destruct (decide (Avatar.user_id x = User.id user)) as [Hmine|Hother].
  - injection Hset as -> Hrest.
    rewrite bool_decide_true by done.
    rewrite filter_cons_True by exact Hmine.
    rewrite fmap_overwrite_absent by done. by rewrite Hrest.
  - assert (first ∈ table) as Hin.
    { eapply (list_elem_of_filter (λ a, Avatar.user_id a = User.id user)).
      rewrite Hset. by left. }
    assert (Avatar.id x ≠ Avatar.id first) as Hne.
    { intros Heq. apply Hx. rewrite Heq.
      by apply (list_elem_of_fmap_2 Avatar.id). }
    rewrite bool_decide_false by done.
    rewrite filter_cons_False by done. by apply IH.
Qed.

(** When the avatars of the user after the first are not flagged, saving
    the first one flagged has no sibling to clear. *)
Lemma siblings_already_clear (table : list Avatar.t) (user : User.t)
    (first : Avatar.t) (rest : list Avatar.t) :
  filter (λ a, Avatar.user_id a = User.id user) table = first :: rest →
  Forall (λ a, Avatar.primary a = false) rest →
  (λ a, if bool_decide (Avatar.user_id a = Avatar.user_id first
                        ∧ Avatar.id a ≠ Avatar.id first)
        then Avatar.set_primary false a else a) <$> table
  = table.
Proof.
  intros Hset Hrest.
  assert (Avatar.user_id first = User.id user) as Hfirst.
  { assert (first ∈ filter (λ a, Avatar.user_id a = User.id user) table) as Hin
      by (rewrite Hset; by left).
    by apply list_elem_of_filter in Hin as [Hin _]. }
  rewrite <- (list_fmap_id table) at 2. apply list_fmap_ext.
  intros i a Hlook. cbn.
  destruct (bool_decide (Avatar.user_id a = Avatar.user_id first
                         ∧ Avatar.id a ≠ Avatar.id first)) eqn:Ha; [|done].
  apply bool_decide_eq_true in Ha as [Hmine Hother].
  assert (a ∈ first :: rest) as Hin.
  { rewrite <- Hset. apply list_elem_of_filter. split; [congruence|].
    by eapply list_elem_of_lookup_2. }
  apply elem_of_cons in Hin as [->|Hin]; [done|].
  apply (proj1 (Forall_forall _ _) Hrest) in Hin.
  destruct a. cbn in Hin. by subst.
Qed.

Section disable_gravatar_facts.
Context `{Collaborators}.

(** X15: [disable_gravatar] for a user without uploaded avatars puts the user on
    type "a" and touches no avatar and sends no signal; the listing of that
    state is the gravatar entry and the default entry, neither primary. *)
Theorem disable_gravatar_without_avatars s request user_id caller user size :
  Request.user request = LoggedIn caller →
  Request.method request = "POST" →
  objects_get user_id (users s) = Some user →
  avatar_set s user = [] →
  ∃ s' user',
    disable_gravatar request user_id s = (redirect_to_show_list user_id, s')
    ∧ objects_get user_id (users s') = Some user'
    ∧ User.avatar_type user' = "a"
    ∧ avatars s' = avatars s
    ∧ avatar_updated s' = avatar_updated s
    ∧ get_avatar_data s' user' size
      = Return ([gravatar_datum user' size; default_datum user' size], false)
    ∧ Datum.is_primary (gravatar_datum user' size) = false
    ∧ Datum.is_primary (default_datum user' size) = false.
Proof.
  intros Hcaller Hpost Huser Hnone.
  unfold disable_gravatar.
  rewrite admin_or_owner_required_unfold, Hcaller. cbn [is_authenticated].
  unfold disable_gravatar_func. rewrite Hpost, Huser.
  rewrite bool_decide_true by done.
  pose proof (objects_get_pk _ _ _ Huser) as Hpk.
  set (user' := User.set_avatar_type "a" user).
  set (s' := with_users _ s).
  assert (avatar_set s' user' = []) as Hnone' by exact Hnone.
  rewrite Hnone'. exists s', user'. split; [done|]. split.
  { subst user_id. exact (objects_get_save user' (users s)). }
  repeat split; try done.
  unfold get_avatar_data. rewrite candidates_unfold, Hnone'.
  by rewrite normalize_none.
Qed.

(** X16: [disable_gravatar] for a user whose avatars are stored under distinct
    keys and whose avatars after the first are not flagged: the user is on
    type "a", the first avatar in storage order is flagged and the others
    are as before, and the listing of that state is the uploaded avatars in
    storage order, the first one primary, then gravatar and default. *)
Theorem disable_gravatar_promotes_first
    s request user_id caller user first rest size :
  Request.user request = LoggedIn caller →
  Request.method request = "POST" →
  objects_get user_id (users s) = Some user →
  NoDup (Avatar.id <$> avatars s) →
  avatar_set s user = first :: rest →
  Forall (λ a, Avatar.primary a = false) rest →
  ∃ s' user',
    disable_gravatar request user_id s = (redirect_to_show_list user_id, s')
    ∧ objects_get user_id (users s') = Some user'
    ∧ User.avatar_type user' = "a"
    ∧ avatar_set s' user' = Avatar.set_primary true first :: rest
    ∧ avatar_updated s'
      = avatar_updated s
          ++ [Signal (Some (User.id caller)) (Avatar.set_primary true first)]
    ∧ get_avatar_data s' user' size
      = Return ((uploaded_datum size <$> Avatar.set_primary true first :: rest)
                  ++ [gravatar_datum user' size; default_datum user' size],
                true)
    ∧ Datum.is_primary
        <$> (uploaded_datum size <$> Avatar.set_primary true first :: rest)
              ++ [gravatar_datum user' size; default_datum user' size]
      = true :: replicate (length rest + 2) false.
Proof.
  intros Hcaller Hpost Huser Hkeys Hset Hrest.
  unfold disable_gravatar.
  rewrite admin_or_owner_required_unfold, Hcaller. cbn [is_authenticated].
  unfold disable_gravatar_func. rewrite Hpost, Huser, Hcaller.
  rewrite bool_decide_true by done. cbn [request_user_id].
  pose proof (objects_get_pk _ _ _ Huser) as Hpk.
  set (user' := User.set_avatar_type "a" user).
  assert (avatar_set (with_users (save user' (users s)) s) user'
          = first :: rest) as -> by exact Hset.
  set (s' := avatar_updated_send _ _ _).
  assert (Avatar.user_id first = user_id) as Howned.
  { assert (first ∈ avatar_set s user) as Hin by (rewrite Hset; by left).
    apply list_elem_of_filter in Hin as [Hin _]. by rewrite Hin. }
  assert (avatar_set s' user' = Avatar.set_primary true first :: rest) as Hset'.
  { unfold avatar_set, s', Avatar_save.
    cbn [Avatar.primary Avatar.set_primary Avatar.user_id Avatar.id
         avatars avatar_updated_send with_users].
    rewrite (siblings_already_clear (avatars s) user first rest) by done.
    by apply (avatar_set_after_promote (avatars s) user). }
  assert (Forall (λ x, ¬ flagged x) (uploaded_datum size <$> rest)) as Hup.
  { apply Forall_fmap. eapply Forall_impl; [exact Hrest|].
    intros a Ha. unfold flagged. cbn. by rewrite Ha. }
  exists s', user'. split; [done|]. split.
  { unfold s', Avatar_save.
    cbn [Avatar.primary Avatar.set_primary Avatar.user_id Avatar.id
         users avatar_updated_send with_users].
    rewrite Howned.
    assert (objects_get user_id (save user' (users s)) = Some user') as ->.
    { rewrite <- Hpk. exact (objects_get_save user' (users s)). }
    rewrite <- Hpk. exact (objects_get_save user' _). }
  split; [done|]. split; [done|]. split; [done|]. split.
  - unfold get_avatar_data. rewrite candidates_unfold, Hset'.
    rewrite fmap_cons. rewrite normalize_at_most_one.
    + cbn [app].
      pose proof (insert_primary_first_split []
                    (uploaded_datum size (Avatar.set_primary true first))
                    ((uploaded_datum size <$> rest)
                       ++ [gravatar_datum user' size; default_datum user' size])
                    (Forall_nil_2 _) eq_refl) as Hfirst.
      cbn [app] in Hfirst. by rewrite Hfirst.
    + cbn [app]. rewrite filter_cons_True by done.
      rewrite filter_app, filter_flagged_none by done.
      rewrite !filter_cons_False by done. done.
  - rewrite fmap_app, <- list_fmap_compose, fmap_cons.
    rewrite replicate_add. cbn [app]. f_equal. f_equal.
    clear -Hrest. induction Hrest as [|a l Ha _ IH]; [done|].
    cbn. by rewrite Ha, IH.
Qed.
End disable_gravatar_facts.

Lemma disable_gravatar_without_avatars_witness :
  ∃ s' user',
    disable_gravatar (Sample.post (Sample.owner "g") ∅) 1 (Sample.store "g" [])
    = (redirect_to_show_list 1, s')
    ∧ objects_get 1 (users s') = Some user'
    ∧ User.avatar_type user' = "a"
    ∧ avatars s' = []
    ∧ avatar_updated s' = []
    ∧ @get_avatar_data Sample.collaborators s' user' 128
      = Return ([@gravatar_datum Sample.collaborators user' 128;
                 @default_datum Sample.collaborators user' 128], false)
    ∧ Datum.is_primary (@gravatar_datum Sample.collaborators user' 128) = false
    ∧ Datum.is_primary (@default_datum Sample.collaborators user' 128) = false.
Proof.
  apply (@disable_gravatar_without_avatars Sample.collaborators
           (Sample.store "g" []) (Sample.post (Sample.owner "g") ∅) 1
           (Sample.owner "g") (Sample.owner "g") 128);
    reflexivity.
Defined.

(** Scenario E followed by the listing: W and X stored in that order, both
    unflagged, the user on gravatar. *)
Lemma disable_gravatar_promotes_first_witness :
  ∃ s' user',
    disable_gravatar (Sample.post (Sample.owner "g") ∅) 1
      (Sample.store "g" [Sample.X false; Sample.Y false])
    = (redirect_to_show_list 1, s')
    ∧ objects_get 1 (users s') = Some user'
    ∧ User.avatar_type user' = "a"
    ∧ avatar_set s' user' = [Sample.X true; Sample.Y false]
    ∧ avatar_updated s' = [Signal (Some 1) (Sample.X true)]
    ∧ @get_avatar_data Sample.collaborators s' user' 128
      = Return ((@uploaded_datum Sample.collaborators 128
                   <$> [Sample.X true; Sample.Y false])
                  ++ [@gravatar_datum Sample.collaborators user' 128;
                      @default_datum Sample.collaborators user' 128],
                true)
    ∧ Datum.is_primary
        <$> (@uploaded_datum Sample.collaborators 128
               <$> [Sample.X true; Sample.Y false])
              ++ [@gravatar_datum Sample.collaborators user' 128;
                  @default_datum Sample.collaborators user' 128]
      = [true; false; false; false].
Proof.
  apply (@disable_gravatar_promotes_first Sample.collaborators
           (Sample.store "g" [Sample.X false; Sample.Y false])
           (Sample.post (Sample.owner "g") ∅) 1
           (Sample.owner "g") (Sample.owner "g")
           (Sample.X false) [Sample.Y false] 128);
    try reflexivity.
  - apply (bool_decide_unpack (NoDup [10; 11])). vm_compute. exact I.
  - repeat constructor.
Defined.

(** ** upload *)


Section upload_facts.
Context `{Collaborators}.

End upload_facts.

